(** * cppfmu_common.hpp: host-backed memory management and logging

    A shallow embedding of [namespace cppfmu] (src/cppfmu_common.hpp).

    The header is a thin layer over three function pointers handed over by
    the simulation environment (allocate, free, logger).  Its behaviour is
    the sequence of calls it makes on them, the exceptions it lets through
    and the two places where the language leaves the behaviour open
    ([noexcept] violations and a null dereference).  The embedding therefore
    runs every operation in a small state-and-exception monad whose state
    is the trace of calls made so far plus the store of shared flags. *)

From Stdlib Require Import NArith ZArith List String Bool Lia.
Import ListNotations.

Local Open Scope N_scope.

(* ====================================================================== *)
(** ** Machine-level values *)
(* ====================================================================== *)

(** [std::size_t].  The header never does arithmetic on sizes (the element
    count and the element size go to the host as two separate arguments), so
    no wrap-around occurs anywhere in the embedded code. *)
Definition size_t := N.

(** Object pointers ([void*], [T*]); [reinterpret_cast] between them is the
    identity on the address. *)
Definition ptr := N.
Definition nullptr : ptr := 0.

(** A C function pointer is the address of a function of the host.  The
    header only copies, compares and calls such pointers. *)
Definition fnptr := N.

(** Modelled from the spec: fmiFunctions.h (the interface standard's header)
    is not among the sources.  Status codes are opaque pass-through values;
    they are kept as the integer value of the C enumeration. *)
Definition fmiStatus := Z.

(** [fmiComponent] is [void*], [fmiString] is [const char*]. *)
Definition fmiComponent := ptr.
Definition fmiString := string.

(** Modelled from the spec: the callback bundle of fmiFunctions.h, with the
    three function references the header reads from it. *)
Record fmiCallbackFunctions := {
  logger : fnptr;
  allocateMemory : fnptr;
  freeMemory : fnptr
}.

(** One argument of the C variadic tail of the host logger. *)
Inductive vararg :=
| va_integer (z : Z)
| va_cstring (s : string)
| va_pointer (p : ptr).

(* ====================================================================== *)
(** ** Errors *)
(* ====================================================================== *)

(** The exception classes that matter to the header.  [cls_other] stands for
    any class of the model code that is unrelated to [std::exception]. *)
Inductive exn_class :=
| cls_exception
| cls_runtime_error
| cls_bad_alloc
| cls_FatalError
| cls_other (id : N).

(** A class followed by its public bases, nearest first.
    [class FatalError : public std::runtime_error] (line 44). *)
Definition bases (c : exn_class) : list exn_class :=
  match c with
  | cls_exception => [cls_exception]
  | cls_runtime_error => [cls_runtime_error; cls_exception]
  | cls_bad_alloc => [cls_bad_alloc; cls_exception]
  | cls_FatalError => [cls_FatalError; cls_runtime_error; cls_exception]
  | cls_other id => [cls_other id]
  end.

Definition exn_class_eqb (c d : exn_class) : bool :=
  match c, d with
  | cls_exception, cls_exception => true
  | cls_runtime_error, cls_runtime_error => true
  | cls_bad_alloc, cls_bad_alloc => true
  | cls_FatalError, cls_FatalError => true
  | cls_other i, cls_other j => N.eqb i j
  | _, _ => false
  end.

(** [FatalError(const char* msg) : std::runtime_error{msg} { }]: the class
    adds no member to its base, its whole state is the message. *)
Record FatalError := { FatalError_what : string }.

(** Thrown objects. *)
Inductive exn :=
| ex_bad_alloc
| ex_runtime_error (what : string)
| ex_FatalError (e : FatalError)
| ex_other (id : N).

Definition class_of (e : exn) : exn_class :=
  match e with
  | ex_bad_alloc => cls_bad_alloc
  | ex_runtime_error _ => cls_runtime_error
  | ex_FatalError _ => cls_FatalError
  | ex_other id => cls_other id
  end.

(** A handler is [catch (...)] or [catch (const C&)]. *)
Inductive handler :=
| catch_ellipsis
| catch_class (c : exn_class).

(** Handler matching: a handler for [C] takes an object whose class is [C]
    or has [C] among its public bases. *)
Definition catches (h : handler) (e : exn) : bool :=
  match h with
  | catch_ellipsis => true
  | catch_class c => existsb (exn_class_eqb c) (bases (class_of e))
  end.

(** The ordinary error kinds: every class except [FatalError] itself. *)
Definition ordinary_class (c : exn_class) : bool :=
  negb (exn_class_eqb c cls_FatalError).

(* ====================================================================== *)
(** ** Calls, state and the monad of the embedding *)
(* ====================================================================== *)

(** What the header does that can be observed from outside: calls of the
    three host functions (with the function address called and the actual
    arguments; an allocation also records the block the host gave back),
    and the start of an object's constructor or destructor. *)
Inductive event :=
| HostAlloc (f : fnptr) (nObj size : size_t) (block : ptr)
| HostFree (f : fnptr) (block : ptr)
| HostLog (f : fnptr) (c : fmiComponent) (instanceName : fmiString)
          (status : fmiStatus) (category message : fmiString)
          (args : list vararg)
| CtorCall (p : ptr)
| DtorCall (p : ptr).

(** [std::shared_ptr<bool>]: empty, or an owner of one cell of the flag
    store.  Shared ownership keeps the cell alive, so the store is total on
    every cell that some handle owns. *)
Definition shared_ptr_bool := option N.

Record state := {
  trace : list event;      (* calls so far, oldest first *)
  flags : N -> bool        (* the cells behind the shared flags *)
}.

Definition emit_state (ev : event) (s : state) : state :=
  {| trace := trace s ++ [ev]; flags := flags s |}.

(** How a call ends: it returns, an exception leaves it, [std::terminate]
    is called, or the behaviour is undefined. *)
Inductive result (A : Type) :=
| Normal (a : A) (s : state)
| Raised (e : exn) (s : state)
| Terminated (s : state)
| Undefined.

Arguments Normal {A} a s.
Arguments Raised {A} e s.
Arguments Terminated {A} s.
Arguments Undefined {A}.

Definition M (A : Type) := state -> result A.

Definition ret {A} (a : A) : M A := fun s => Normal a s.

Definition bind {A B} (c : M A) (k : A -> M B) : M B :=
  fun s =>
    match c s with
    | Normal a s' => k a s'
    | Raised e s' => Raised e s'
    | Terminated s' => Terminated s'
    | Undefined => Undefined
    end.

Definition throw {A} (e : exn) : M A := fun s => Raised e s.

Definition emit (ev : event) : M unit := fun s => Normal tt (emit_state ev s).

Definition undefined_behaviour {A} : M A := fun _ => Undefined.

Declare Scope cxx_scope.
Delimit Scope cxx_scope with cxx.
Notation "x <- c ;; k" := (bind c (fun x => k))
  (at level 61, c at next level, right associativity) : cxx_scope.
Notation "c ;; k" := (bind c (fun _ => k))
  (at level 61, right associativity) : cxx_scope.
Local Open Scope cxx_scope.

(** [try { body } catch (h) { on_catch }]; inside [on_catch] the caught
    object is at hand, so that [throw;] is [throw e]. *)
Definition try_catch {A} (body : M A) (h : handler) (on_catch : exn -> M A)
  : M A :=
  fun s =>
    match body s with
    | Raised e s' => if catches h e then on_catch e s' else Raised e s'
    | r => r
    end.

(** [CPPFMU_NOEXCEPT] (lines 24-29): an exception that would leave the
    function calls [std::terminate] instead. *)
Definition noexcept {A} (body : M A) : M A :=
  fun s =>
    match body s with
    | Raised _ s' => Terminated s'
    | r => r
    end.

(** Reading through a [std::shared_ptr<bool>]: [*p] on an empty pointer has
    no defined behaviour. *)
Definition deref (p : shared_ptr_bool) : M bool :=
  match p with
  | None => undefined_behaviour
  | Some cell => fun s => Normal (flags s cell) s
  end.

(** The simulation environment.  The only value it hands back is the block
    of an allocation; it may depend on the function called, on the request
    and on everything that was called before. *)
Class HostEnv := {
  host_allocate : fnptr -> size_t -> size_t -> list event -> ptr
}.

(** A type the templates are instantiated at: its size, its constructor
    (with the type of the forwarded arguments) and its destructor.  Both
    bodies are arbitrary code of the model. *)
Record CxxType := {
  sizeof : size_t;
  ctor_args : Type;
  constructor : ctor_args -> ptr -> M unit;
  destructor : ptr -> M unit
}.

(* ====================================================================== *)
(** ** class Memory (lines 60-94) *)
(* ====================================================================== *)

Record Memory := {
  m_alloc : fnptr;
  m_free : fnptr
}.

(** [explicit Memory(const fmiCallbackFunctions&)] *)
Definition Memory_new (callbackFunctions : fmiCallbackFunctions) : Memory :=
  {| m_alloc := allocateMemory callbackFunctions;
     m_free := freeMemory callbackFunctions |}.

Section MemoryOps.
Context {host : HostEnv}.

(** Calling the host's allocate function through a pointer. *)
Definition call_allocate (f : fnptr) (nObj size : size_t) : M ptr :=
  fun s =>
    let block := host_allocate f nObj size (trace s) in
    Normal block (emit_state (HostAlloc f nObj size block) s).

(** [void* Alloc(std::size_t nObj, std::size_t size) noexcept] *)
Definition Alloc (m : Memory) (nObj size : size_t) : M ptr :=
  noexcept (call_allocate (m_alloc m) nObj size).
End MemoryOps.

(** Calling the host's free function through a pointer. *)
Definition call_free (f : fnptr) (p : ptr) : M unit := emit (HostFree f p).

(** [void Free(void* ptr) noexcept] *)
Definition Free (m : Memory) (p : ptr) : M unit :=
  noexcept (call_free (m_free m) p).

(** [bool operator==(const Memory& rhs) const noexcept] *)
Definition Memory_eq (lhs rhs : Memory) : bool :=
  N.eqb (m_alloc lhs) (m_alloc rhs) && N.eqb (m_free lhs) (m_free rhs).

(** [bool operator!=(const Memory& rhs) const noexcept] *)
Definition Memory_ne (lhs rhs : Memory) : bool := negb (Memory_eq lhs rhs).

(* ====================================================================== *)
(** ** template<typename T> class Allocator (lines 104-184) *)
(* ====================================================================== *)

Record Allocator (T : CxxType) := { m_memory : Memory }.
Arguments m_memory {T} _.

(** [explicit Allocator(const Memory& memory)] *)
Definition Allocator_new (T : CxxType) (memory : Memory) : Allocator T :=
  {| m_memory := memory |}.

(** [template<typename U> Allocator(const Allocator<U>& other) noexcept]:
    the converting constructor behind [rebind<U>::other]. *)
Definition Allocator_convert {U : CxxType} (T : CxxType) (other : Allocator U)
  : Allocator T :=
  {| m_memory := m_memory other |}.

(** [rebind<U>::other] built from an [Allocator<T>]. *)
Definition rebind {T : CxxType} (U : CxxType) (a : Allocator T) : Allocator U :=
  Allocator_convert U a.

Section AllocatorOps.
Context {host : HostEnv}.

(** [T* allocate(std::size_t n)] *)
Definition allocate {T} (a : Allocator T) (n : size_t) : M ptr :=
  if N.eqb n 0 then ret nullptr
  else
    m <- Alloc (m_memory a) n (sizeof T) ;;
    if negb (N.eqb m nullptr) then ret m else throw ex_bad_alloc.
End AllocatorOps.

(** [void deallocate(T* p, std::size_t n) noexcept] *)
Definition deallocate {T} (a : Allocator T) (p : ptr) (n : size_t) : M unit :=
  noexcept (if N.ltb 0 n then Free (m_memory a) p else ret tt).

(** [bool operator==(const Allocator& rhs) const noexcept] *)
Definition Allocator_eq {T} (lhs rhs : Allocator T) : bool :=
  Memory_eq (m_memory lhs) (m_memory rhs).

(** [bool operator!=(const Allocator& rhs) const noexcept] *)
Definition Allocator_ne {T} (lhs rhs : Allocator T) : bool :=
  negb (Allocator_eq lhs rhs).

(** [construct(U* p, Args&&... args)]: placement new at [p]. *)
Definition construct {T} (a : Allocator T) (p : ptr) (args : ctor_args T)
  : M unit :=
  emit (CtorCall p) ;; constructor T args p.

(** [destroy(U* p)]: [p->~U()]. *)
Definition destroy {T} (a : Allocator T) (p : ptr) : M unit :=
  emit (DtorCall p) ;; destructor T p.

(* ====================================================================== *)
(** ** New, Delete, UniquePtr, AllocateUnique (lines 198-247) *)
(* ====================================================================== *)

Section NewOps.
Context {host : HostEnv}.

(** [template<typename T, typename... Args>
     T* New(const Memory& memory, Args&&... args)] *)
Definition New (T : CxxType) (memory : Memory) (args : ctor_args T) : M ptr :=
  let alloc := Allocator_new T memory in
  ptr <- allocate alloc 1 ;;
  try_catch (construct alloc ptr args)
            catch_ellipsis
            (fun e => deallocate alloc ptr 1 ;; throw e) ;;
  ret ptr.
End NewOps.

(** [template<typename T> void Delete(const Memory& memory, T* obj) noexcept] *)
Definition Delete (T : CxxType) (memory : Memory) (obj : ptr) : M unit :=
  noexcept (
    let alloc := Allocator_new T memory in
    destroy alloc obj ;;
    deallocate alloc obj 1).

(** [UniquePtr<T>], a [std::unique_ptr<T, D>] whose deleter type [D] is a
    [std::function] from [void*] to [void]: the owned pointer and the
    type-erased deleter. *)
Record UniquePtr (T : CxxType) := {
  get : ptr;
  get_deleter : ptr -> M unit
}.
Arguments get {T} _.
Arguments get_deleter {T} _.

(** The end of a handle's life, [~unique_ptr()] of the standard library: the
    deleter is called on the owned pointer unless the handle is empty. *)
Definition unique_ptr_destroy {T} (u : UniquePtr T) : M unit :=
  noexcept (
    if negb (N.eqb (get u) nullptr) then get_deleter u (get u) else ret tt).

(** Moving a handle, [unique_ptr(unique_ptr&&)] of the standard library: the
    new handle takes the pointer and the deleter, the source is left empty.
    The pair is (new handle, source afterwards). *)
Definition unique_ptr_move {T} (u : UniquePtr T) : UniquePtr T * UniquePtr T :=
  (u, {| get := nullptr; get_deleter := get_deleter u |}).

Section UniqueOps.
Context {host : HostEnv}.

(** [template<typename T, typename... Args>
     UniquePtr<T> AllocateUnique(const Memory& memory, Args&&... args)] *)
Definition AllocateUnique (T : CxxType) (memory : Memory) (args : ctor_args T)
  : M (UniquePtr T) :=
  p <- New T memory args ;;
  ret {| get := p;
         get_deleter := fun ptr => Delete T memory ptr |}.
End UniqueOps.

(* ====================================================================== *)
(** ** class Logger (lines 258-314) *)
(* ====================================================================== *)

Record Logger := {
  m_component : fmiComponent;
  m_instanceName : string;
  m_fmiLogger : fnptr;
  m_debugLoggingEnabled : shared_ptr_bool
}.

(** [Logger(fmiComponent, String, fmiCallbackFunctions,
            std::shared_ptr<bool>)] *)
Definition Logger_new (component : fmiComponent) (instanceName : string)
    (callbackFunctions : fmiCallbackFunctions)
    (debugLoggingEnabled : shared_ptr_bool) : Logger :=
  {| m_component := component;
     m_instanceName := instanceName;
     m_fmiLogger := logger callbackFunctions;
     m_debugLoggingEnabled := debugLoggingEnabled |}.

(** Calling the host's logger through a pointer. *)
Definition call_logger (f : fnptr) (c : fmiComponent) (instanceName : fmiString)
    (status : fmiStatus) (category message : fmiString) (args : list vararg)
  : M unit :=
  emit (HostLog f c instanceName status category message args).

(** [void Log(fmiStatus, fmiString, fmiString, Args&&...) noexcept] *)
Definition Log (l : Logger) (status : fmiStatus) (category message : fmiString)
    (args : list vararg) : M unit :=
  noexcept (
    call_logger (m_fmiLogger l) (m_component l) (m_instanceName l)
                status category message args).

(** [void DebugLog(fmiStatus, fmiString, fmiString, Args&&...) noexcept] *)
Definition DebugLog (l : Logger) (status : fmiStatus)
    (category message : fmiString) (args : list vararg) : M unit :=
  noexcept (
    enabled <- deref (m_debugLoggingEnabled l) ;;
    if enabled then Log l status category message args else ret tt).

(* ====================================================================== *)
(** ** Reading traces *)
(* ====================================================================== *)

Definition is_host_alloc (ev : event) : bool :=
  match ev with HostAlloc _ _ _ _ => true | _ => false end.

Definition is_host_free (ev : event) : bool :=
  match ev with HostFree _ _ => true | _ => false end.

Definition is_host_log (ev : event) : bool :=
  match ev with HostLog _ _ _ _ _ _ _ => true | _ => false end.

Definition is_dtor_call (ev : event) : bool :=
  match ev with DtorCall _ => true | _ => false end.

Definition is_ctor_call (ev : event) : bool :=
  match ev with CtorCall _ => true | _ => false end.

(** Number of events of a kind in a trace. *)
Definition calls (kind : event -> bool) (tr : list event) : nat :=
  List.length (filter kind tr).

(** [c] fails when an exception leaves it. *)
Definition raises {A} (r : result A) : bool :=
  match r with Raised _ _ => true | _ => false end.

Definition is_undefined {A} (r : result A) : bool :=
  match r with Undefined => true | _ => false end.

(** The block [New<T>] obtains from the host and the state in which the
    constructor body of [T] starts, both read off a start state. *)
Section NewStates.
Context {host : HostEnv}.

Definition New_block (T : CxxType) (memory : Memory) (s : state) : ptr :=
  host_allocate (m_alloc memory) 1 (sizeof T) (trace s).

Definition New_ctor_state (T : CxxType) (memory : Memory) (s : state) : state :=
  emit_state (CtorCall (New_block T memory s))
    (emit_state (HostAlloc (m_alloc memory) 1 (sizeof T) (New_block T memory s)) s).
End NewStates.

(* ====================================================================== *)
(** ** A counting stand-in for the host, and two model types *)
(* ====================================================================== *)

Definition mock_allocate : fnptr := 100.
Definition mock_exhausted_allocate : fnptr := 101.
Definition mock_free : fnptr := 200.
Definition mock_logger : fnptr := 300.

(** The allocate function at [mock_allocate] hands out consecutive 64-byte
    slots from address 4096 on; every other one is out of memory. *)
Definition mock_host : HostEnv :=
  {| host_allocate f nObj size tr :=
       if N.eqb f mock_allocate
       then 4096 + 64 * N.of_nat (calls is_host_alloc tr)
       else nullptr |}.

Definition mock_callbacks : fmiCallbackFunctions :=
  {| logger := mock_logger;
     allocateMemory := mock_allocate;
     freeMemory := mock_free |}.

Definition mock_memory : Memory := Memory_new mock_callbacks.

Definition start : state := {| trace := []; flags := fun _ => false |}.

(** The flag store where cell 0 holds [b]. *)
Definition start_with_flag (b : bool) : state :=
  {| trace := []; flags := fun cell => if N.eqb cell 0 then b else false |}.

(** A model type whose constructor takes one argument and throws it when it
    is given one; its destructor does nothing. *)
Definition Widget : CxxType :=
  {| sizeof := 8;
     ctor_args := option exn;
     constructor := fun args _ =>
       match args with Some e => throw e | None => ret tt end;
     destructor := fun _ => ret tt |}.

Definition IntT : CxxType :=
  {| sizeof := 4;
     ctor_args := unit;
     constructor := fun _ _ => ret tt;
     destructor := fun _ => ret tt |}.

(** A model type whose destructor throws. *)
Definition Grenade : CxxType :=
  {| sizeof := 1;
     ctor_args := unit;
     constructor := fun _ _ => ret tt;
     destructor := fun _ => throw (ex_runtime_error "bang"%string) |}.

(** A Memory whose allocate function is out of memory. *)
Definition exhausted_memory : Memory :=
  {| m_alloc := mock_exhausted_allocate; m_free := mock_free |}.

Definition mock_log_instance (flag : shared_ptr_bool) : Logger :=
  Logger_new 7 "instance"%string mock_callbacks flag.

(* ====================================================================== *)
(** ** Running the operations: one equation per function *)
(* ====================================================================== *)

Lemma calls_emit kind ev s :
  calls kind (trace (emit_state ev s)) =
  (if kind ev then S (calls kind (trace s)) else calls kind (trace s)).
Proof.
  unfold calls, emit_state; cbn [trace].
  rewrite filter_app, length_app; cbn [filter].
  destruct (kind ev); cbn [List.length]; lia.
Qed.

Lemma Memory_eq_true m1 m2 :
  Memory_eq m1 m2 = true <-> m_alloc m1 = m_alloc m2 /\ m_free m1 = m_free m2.
Proof.
  unfold Memory_eq.
  rewrite andb_true_iff, !N.eqb_eq.
  reflexivity.
Qed.

Lemma Memory_eq_refl m : Memory_eq m m = true.
Proof. apply Memory_eq_true; split; reflexivity. Qed.

Lemma Memory_eq_leibniz m1 m2 : Memory_eq m1 m2 = true <-> m1 = m2.
Proof.
  rewrite Memory_eq_true.
  destruct m1 as [a1 f1], m2 as [a2 f2]; cbn [m_alloc m_free].
  split.
  - intros [-> ->]; reflexivity.
  - intros H; injection H as -> ->; split; reflexivity.
Qed.

Lemma Free_run m p s :
  Free m p s = Normal tt (emit_state (HostFree (m_free m) p) s).
Proof. reflexivity. Qed.

Lemma deallocate_run T (a : Allocator T) p n s :
  deallocate a p n s =
  if N.ltb 0 n
  then Normal tt (emit_state (HostFree (m_free (m_memory a)) p) s)
  else Normal tt s.
Proof.
  unfold deallocate, noexcept.
  destruct (N.ltb 0 n); reflexivity.
Qed.

Lemma Log_run l status category message args s :
  Log l status category message args s =
  Normal tt (emit_state (HostLog (m_fmiLogger l) (m_component l)
                                 (m_instanceName l) status category message
                                 args) s).
Proof. reflexivity. Qed.

Lemma DebugLog_run l status category message args s :
  DebugLog l status category message args s =
  match m_debugLoggingEnabled l with
  | None => Undefined
  | Some cell =>
      if flags s cell
      then Log l status category message args s
      else Normal tt s
  end.
Proof.
  unfold DebugLog, noexcept, bind, deref, undefined_behaviour.
  destruct (m_debugLoggingEnabled l) as [cell|]; [|reflexivity].
  destruct (flags s cell); reflexivity.
Qed.

Lemma Delete_run T memory obj s :
  Delete T memory obj s =
  match destructor T obj (emit_state (DtorCall obj) s) with
  | Normal _ s' => Normal tt (emit_state (HostFree (m_free memory) obj) s')
  | Raised _ s' => Terminated s'
  | Terminated s' => Terminated s'
  | Undefined => Undefined
  end.
Proof.
  unfold Delete, noexcept, destroy, bind, emit.
  destruct (destructor T obj (emit_state (DtorCall obj) s)); reflexivity.
Qed.

Section Running.
Context {host : HostEnv}.

Lemma Alloc_run m nObj size s :
  Alloc m nObj size s =
  Normal (host_allocate (m_alloc m) nObj size (trace s))
         (emit_state (HostAlloc (m_alloc m) nObj size
                        (host_allocate (m_alloc m) nObj size (trace s))) s).
Proof. reflexivity. Qed.

Lemma allocate_run T (a : Allocator T) n s :
  allocate a n s =
  if N.eqb n 0 then Normal nullptr s
  else
    let block := host_allocate (m_alloc (m_memory a)) n (sizeof T) (trace s) in
    let s' := emit_state (HostAlloc (m_alloc (m_memory a)) n (sizeof T) block) s in
    if N.eqb block nullptr then Raised ex_bad_alloc s' else Normal block s'.
Proof.
  unfold allocate.
  destruct (N.eqb n 0); [reflexivity|].
  unfold bind; rewrite Alloc_run; cbv zeta.
  destruct (N.eqb _ nullptr); reflexivity.
Qed.

Lemma New_run T memory args s :
  New T memory args s =
  if N.eqb (New_block T memory s) nullptr
  then Raised ex_bad_alloc
         (emit_state (HostAlloc (m_alloc memory) 1 (sizeof T)
                        (New_block T memory s)) s)
  else
    match constructor T args (New_block T memory s)
                      (New_ctor_state T memory s) with
    | Normal _ s' => Normal (New_block T memory s) s'
    | Raised e s' =>
        Raised e (emit_state (HostFree (m_free memory) (New_block T memory s)) s')
    | Terminated s' => Terminated s'
    | Undefined => Undefined
    end.
Proof.
  unfold New, bind at 1.
  rewrite allocate_run; cbn [N.eqb]; cbv zeta.
  cbn [Allocator_new m_memory].
  fold (New_block T memory s).
  destruct (N.eqb (New_block T memory s) nullptr); [reflexivity|].
  unfold bind, try_catch, construct, bind, emit.
  fold (New_ctor_state T memory s).
  destruct (constructor T args (New_block T memory s) (New_ctor_state T memory s));
    reflexivity.
Qed.

Lemma AllocateUnique_run T memory args s :
  AllocateUnique T memory args s =
  match New T memory args s with
  | Normal p s' =>
      Normal {| get := p; get_deleter := fun ptr => Delete T memory ptr |} s'
  | Raised e s' => Raised e s'
  | Terminated s' => Terminated s'
  | Undefined => Undefined
  end.
Proof. reflexivity. Qed.
End Running.

(* ====================================================================== *)
(** ** Concrete runs on the counting host *)
(* ====================================================================== *)

(** Four [int]s requested and given back: one allocate call with
    [(4, sizeof(int))], one free call on the block it returned. *)
Example allocate_then_deallocate :
  (p <- allocate (host := mock_host) (Allocator_new IntT mock_memory) 4 ;;
   deallocate (Allocator_new IntT mock_memory) p 4) start =
  Normal tt {| trace := [HostAlloc mock_allocate 4 4 4096;
                         HostFree mock_free 4096];
               flags := flags start |}.
Proof. reflexivity. Qed.

Example allocate_out_of_memory :
  allocate (host := mock_host) (Allocator_new IntT exhausted_memory) 4 start =
  Raised ex_bad_alloc
    {| trace := [HostAlloc mock_exhausted_allocate 4 4 nullptr];
       flags := flags start |}.
Proof. reflexivity. Qed.

(** No block, no construction and nothing to free. *)
Example New_out_of_memory :
  New (host := mock_host) Widget exhausted_memory None start =
  Raised ex_bad_alloc
    {| trace := [HostAlloc mock_exhausted_allocate 1 8 nullptr];
       flags := flags start |}.
Proof. reflexivity. Qed.

Example New_then_New :
  (p <- New (host := mock_host) Widget mock_memory None ;;
   q <- New (host := mock_host) IntT mock_memory tt ;;
   ret (p, q)) start =
  Normal (4096, 4160)
    {| trace := [HostAlloc mock_allocate 1 8 4096; CtorCall 4096;
                 HostAlloc mock_allocate 1 4 4160; CtorCall 4160];
       flags := flags start |}.
Proof. reflexivity. Qed.

(** A destructor that throws inside the [noexcept] function [Delete<T>]:
    the program is terminated, the block is not freed. *)
Example Delete_throwing_destructor :
  Delete Grenade mock_memory 4096 start =
  Terminated {| trace := [DtorCall 4096]; flags := flags start |}.
Proof. reflexivity. Qed.

Example Log_with_empty_flag :
  Log (mock_log_instance None) 3%Z "logError"%string "no solution"%string
      [va_integer 7] start =
  Normal tt
    {| trace := [HostLog mock_logger 7 "instance"%string 3%Z "logError"%string
                         "no solution"%string [va_integer 7]];
       flags := flags start |}.
Proof. apply Log_run. Qed.

(* ====================================================================== *)
(** ** Allocator: allocation, deallocation, equality, rebinding *)
(* ====================================================================== *)

Section AllocatorSpec.
Context {host : HostEnv}.

(** C2.  For every [Allocator<T>]: [allocate(0)] returns the null pointer
    and leaves the trace as it was (no host call); [deallocate(p, 0)]
    returns and leaves the trace as it was; for [n > 0], [allocate(n)]
    makes exactly one host call, [Alloc(n, sizeof(T))] on the wrapped
    allocate function, and then returns the very block the host gave back
    for that request when it is not null, and throws [std::bad_alloc]
    when it is null.  There is no second call in either case. *)
Theorem allocate_deallocate_contract T (a : Allocator T) (s : state) :
  allocate a 0 s = Normal nullptr s
  /\ (forall p, deallocate a p 0 s = Normal tt s)
  /\ (forall n, 0 < n ->
        let block := host_allocate (m_alloc (m_memory a)) n (sizeof T) (trace s) in
        let s' := emit_state (HostAlloc (m_alloc (m_memory a)) n (sizeof T) block) s in
        (block <> nullptr -> allocate a n s = Normal block s')
        /\ (block = nullptr -> allocate a n s = Raised ex_bad_alloc s')
        /\ trace s' = trace s ++ [HostAlloc (m_alloc (m_memory a)) n (sizeof T) block]
        /\ calls is_host_alloc (trace s') = S (calls is_host_alloc (trace s))
        /\ calls is_host_free (trace s') = calls is_host_free (trace s)).
Proof.
  split; [reflexivity|].
  split; [intros p; reflexivity|].
  intros n Hn block s'.
  assert (Hnz : N.eqb n 0 = false) by (apply N.eqb_neq; lia).
  pose proof (allocate_run T a n s) as Hrun.
  rewrite Hnz in Hrun; cbv zeta in Hrun.
  fold block in Hrun; fold s' in Hrun.
  repeat split.
  - intros Hblock. apply N.eqb_neq in Hblock.
    rewrite Hblock in Hrun. exact Hrun.
  - intros Hblock. apply N.eqb_eq in Hblock.
    rewrite Hblock in Hrun. exact Hrun.
  - subst s'. rewrite calls_emit. reflexivity.
  - subst s'. rewrite calls_emit. reflexivity.
Qed.
End AllocatorSpec.

(** C3.  Two allocators compare equal exactly when their Memory handles
    compare equal, two Memory handles compare equal exactly when their
    allocate pointers are the same and their free pointers are the same
    (so exactly when they are the same pair), and [!=] is the negation of
    [==] for both classes. *)
Theorem equality_is_pointer_pair_equality T (A B : Allocator T) (m1 m2 : Memory) :
  (Allocator_eq A B = true <-> Memory_eq (m_memory A) (m_memory B) = true)
  /\ (Memory_eq m1 m2 = true <-> m_alloc m1 = m_alloc m2 /\ m_free m1 = m_free m2)
  /\ (Memory_eq m1 m2 = true <-> m1 = m2)
  /\ Allocator_ne A B = negb (Allocator_eq A B)
  /\ (Allocator_ne A B = true <-> Allocator_eq A B = false)
  /\ Memory_ne m1 m2 = negb (Memory_eq m1 m2).
Proof.
  split; [reflexivity|].
  split; [apply Memory_eq_true|].
  split; [apply Memory_eq_leibniz|].
  split; [reflexivity|].
  split; [apply negb_true_iff|reflexivity].
Qed.

(** C4.  Rebinding an [Allocator<T>] to element type [U] keeps the wrapped
    Memory, so the rebound allocator and the original compare equal, in
    either order of the operands ([==] converts its right operand to the
    type of the left one through the same converting constructor). *)
Theorem rebind_preserves_memory T U (a : Allocator T) :
  m_memory (rebind U a) = m_memory a
  /\ Allocator_eq (rebind U a) (Allocator_convert U a) = true
  /\ Allocator_eq a (Allocator_convert T (rebind U a)) = true
  /\ Allocator_ne (rebind U a) (Allocator_convert U a) = false.
Proof.
  unfold Allocator_ne, Allocator_eq, rebind, Allocator_convert; cbn [m_memory].
  rewrite Memory_eq_refl.
  repeat split.
Qed.

(** Four [int]s from the counting host: one allocate call with
    [(4, sizeof(int))], and the block is the host's. *)
Lemma allocate_deallocate_contract_witness :
  0 < 4 /\
  allocate (host := mock_host) (Allocator_new IntT mock_memory) 4 start =
  Normal 4096 {| trace := [HostAlloc mock_allocate 4 4 4096];
                 flags := flags start |}.
Proof.
  split; [reflexivity|].
  refine (proj1 (proj2 (proj2
    (allocate_deallocate_contract (host := mock_host) IntT
       (Allocator_new IntT mock_memory) start)) 4 _) _).
  - reflexivity.
  - discriminate.
Defined.

(* ====================================================================== *)
(** ** New and Delete *)
(* ====================================================================== *)

Section NewSpec.
Context {host : HostEnv}.

(** C1.  Let the host give [New<T>] a block (not null).  If the constructor
    of [T] then throws [e], [New<T>] throws the same [e], and between the
    state in which the constructor stopped and the state the caller sees
    there is exactly one more call: the host's free function on that
    block; in particular no destructor call is added.  If the constructor
    returns, [New<T>] returns the block in the very state the constructor
    left, so nothing was deallocated. *)
Theorem New_exception_safety T memory (args : ctor_args T) (s : state) :
  New_block T memory s <> nullptr ->
  (forall e s',
      constructor T args (New_block T memory s) (New_ctor_state T memory s)
        = Raised e s' ->
      New T memory args s =
        Raised e (emit_state (HostFree (m_free memory) (New_block T memory s)) s')
      /\ trace (emit_state (HostFree (m_free memory) (New_block T memory s)) s') =
           trace s' ++ [HostFree (m_free memory) (New_block T memory s)]
      /\ calls is_host_free
           (trace (emit_state (HostFree (m_free memory) (New_block T memory s)) s')) =
           S (calls is_host_free (trace s'))
      /\ calls is_dtor_call
           (trace (emit_state (HostFree (m_free memory) (New_block T memory s)) s')) =
           calls is_dtor_call (trace s'))
  /\ (forall u s',
      constructor T args (New_block T memory s) (New_ctor_state T memory s)
        = Normal u s' ->
      New T memory args s = Normal (New_block T memory s) s').
Proof.
  intros Hblock.
  apply N.eqb_neq in Hblock.
  pose proof (New_run T memory args s) as Hrun.
  rewrite Hblock in Hrun.
  split.
  - intros e s' Hctor. rewrite Hctor in Hrun.
    rewrite !calls_emit. cbn [is_host_free is_dtor_call].
    repeat split. exact Hrun.
  - intros u s' Hctor. rewrite Hctor in Hrun. exact Hrun.
Qed.
End NewSpec.

(** C6.  [Delete<T>] never lets an exception out, whatever the destructor
    does.  When the destructor of the object returns (having added the
    calls [evs] of its own), [Delete<T>] returns too, and what it added to
    the trace is one destructor call on [obj], then the destructor's own
    calls, then one call of the host's free function on [obj]. *)
Theorem Delete_destroys_then_frees T memory (obj : ptr) (s : state) :
  raises (Delete T memory obj s) = false
  /\ (forall s' evs,
        destructor T obj (emit_state (DtorCall obj) s) = Normal tt s' ->
        trace s' = trace (emit_state (DtorCall obj) s) ++ evs ->
        Delete T memory obj s =
          Normal tt (emit_state (HostFree (m_free memory) obj) s')
        /\ trace (emit_state (HostFree (m_free memory) obj) s') =
             trace s ++ [DtorCall obj] ++ evs ++ [HostFree (m_free memory) obj]).
Proof.
  rewrite Delete_run.
  split.
  - destruct (destructor T obj (emit_state (DtorCall obj) s)); reflexivity.
  - intros s' evs Hdtor Htrace. rewrite Hdtor.
    split; [reflexivity|].
    cbn [emit_state trace] in *. rewrite Htrace.
    rewrite <- !app_assoc. reflexivity.
Qed.

(** A throwing constructor on the counting host: one allocation, one
    constructor call, one free of the same block, and the same exception. *)
Lemma New_exception_safety_witness :
  New_block (host := mock_host) Widget mock_memory start <> nullptr /\
  New (host := mock_host) Widget mock_memory (Some (ex_other 42)) start =
  Raised (ex_other 42)
    {| trace := [HostAlloc mock_allocate 1 8 4096; CtorCall 4096;
                 HostFree mock_free 4096];
       flags := flags start |}.
Proof.
  split; [discriminate|].
  refine (proj1 (proj1
    (New_exception_safety (host := mock_host) Widget mock_memory
       (Some (ex_other 42)) start _) (ex_other 42)
       (New_ctor_state (host := mock_host) Widget mock_memory start) _)).
  - discriminate.
  - reflexivity.
Defined.

Lemma Delete_destroys_then_frees_witness :
  Delete Widget mock_memory 4096 start =
  Normal tt {| trace := [DtorCall 4096; HostFree mock_free 4096];
               flags := flags start |}.
Proof.
  refine (proj1 (proj2
    (Delete_destroys_then_frees Widget mock_memory 4096 start)
    (emit_state (DtorCall 4096) start) [] _ _)).
  - reflexivity.
  - reflexivity.
Defined.

(* ====================================================================== *)
(** ** AllocateUnique *)
(* ====================================================================== *)

Section UniqueSpec.
Context {host : HostEnv}.

Lemma New_returns T memory (args : ctor_args T) s p s1 :
  New T memory args s = Normal p s1 ->
  p = New_block T memory s /\ p <> nullptr.
Proof.
  rewrite New_run.
  destruct (N.eqb (New_block T memory s) nullptr) eqn:Hblock; [discriminate|].
  apply N.eqb_neq in Hblock.
  destruct (constructor T args _ _); try discriminate.
  intros H; injection H as <- _. split; [reflexivity|exact Hblock].
Qed.

(** C5.  Let [AllocateUnique<T>(memory, args...)] return the handle [u].
    Then [u] owns the block [New<T>] obtained (it is not null), and its
    release action is, from creation on, [Delete<T>] through the [memory]
    that was passed.  Ending the life of [u] never throws, and when the
    destructor of the held object returns it adds to the trace one
    destructor call on the held object, the destructor's own calls, and
    one call of [memory]'s free function on the held block.  Moving the
    handle carries pointer and release action over unchanged and leaves a
    source whose end of life does nothing, so along any chain of moves the
    release action runs once. *)
Theorem AllocateUnique_release T memory (args : ctor_args T) (s s1 : state)
    (u : UniquePtr T) :
  AllocateUnique T memory args s = Normal u s1 ->
  get u = New_block T memory s
  /\ get u <> nullptr
  /\ get_deleter u = (fun ptr => Delete T memory ptr)
  /\ (forall t, raises (unique_ptr_destroy u t) = false)
  /\ (forall t t' evs,
        destructor T (get u) (emit_state (DtorCall (get u)) t) = Normal tt t' ->
        trace t' = trace (emit_state (DtorCall (get u)) t) ++ evs ->
        unique_ptr_destroy u t =
          Normal tt (emit_state (HostFree (m_free memory) (get u)) t')
        /\ trace (emit_state (HostFree (m_free memory) (get u)) t') =
             trace t ++ [DtorCall (get u)] ++ evs
                     ++ [HostFree (m_free memory) (get u)])
  /\ get (fst (unique_ptr_move u)) = get u
  /\ get_deleter (fst (unique_ptr_move u)) = get_deleter u
  /\ (forall t, unique_ptr_destroy (snd (unique_ptr_move u)) t = Normal tt t).
Proof.
  rewrite AllocateUnique_run.
  destruct (New T memory args s) as [p s'| | |] eqn:HNew; try discriminate.
  intros H; injection H as <- <-.
  destruct (New_returns _ _ _ _ _ _ HNew) as [Hp Hnn].
  cbn [get get_deleter unique_ptr_move fst snd].
  assert (Hrelease : forall t,
             unique_ptr_destroy (T := T)
               {| get := p; get_deleter := fun ptr => Delete T memory ptr |} t =
             match Delete T memory p t with
             | Raised _ t' => Terminated t'
             | r => r
             end).
  { intros t. unfold unique_ptr_destroy, noexcept; cbn [get get_deleter].
    apply N.eqb_neq in Hnn. rewrite Hnn. reflexivity. }
  split; [exact Hp|].
  split; [exact Hnn|].
  split; [reflexivity|].
  split.
  - intros t. rewrite Hrelease.
    destruct (Delete T memory p t); reflexivity.
  - split; [|repeat split].
    intros t t' evs Hdtor Htrace.
    rewrite Hrelease, Delete_run, Hdtor.
    split; [reflexivity|].
    cbn [emit_state trace] in *. rewrite Htrace.
    rewrite <- !app_assoc. reflexivity.
Qed.
End UniqueSpec.

Lemma AllocateUnique_release_witness :
  AllocateUnique (host := mock_host) Widget mock_memory None start =
    Normal {| get := 4096; get_deleter := fun ptr => Delete Widget mock_memory ptr |}
           {| trace := [HostAlloc mock_allocate 1 8 4096; CtorCall 4096];
              flags := flags start |}
  /\ unique_ptr_destroy (T := Widget)
       {| get := 4096; get_deleter := fun ptr => Delete Widget mock_memory ptr |}
       {| trace := [HostAlloc mock_allocate 1 8 4096; CtorCall 4096];
          flags := flags start |} =
     Normal tt
       {| trace := [HostAlloc mock_allocate 1 8 4096; CtorCall 4096;
                    DtorCall 4096; HostFree mock_free 4096];
          flags := flags start |}.
Proof.
  split; [reflexivity|].
  refine (proj1 (proj1 (proj2 (proj2 (proj2 (proj2
    (AllocateUnique_release (host := mock_host) Widget mock_memory None start
       {| trace := [HostAlloc mock_allocate 1 8 4096; CtorCall 4096];
          flags := flags start |}
       {| get := 4096; get_deleter := fun ptr => Delete Widget mock_memory ptr |}
       _)))))
    {| trace := [HostAlloc mock_allocate 1 8 4096; CtorCall 4096];
       flags := flags start |}
    {| trace := [HostAlloc mock_allocate 1 8 4096; CtorCall 4096; DtorCall 4096];
       flags := flags start |}
    [] _ _)).
  - reflexivity.
  - reflexivity.
  - reflexivity.
Defined.

(* ====================================================================== *)
(** ** Logger *)
(* ====================================================================== *)

(** C7.  [Log] always returns after exactly one call of the host's logger,
    made with the component handle, the instance name, the status, the
    category, the message and the arguments, whatever the debug flag is
    (or whether there is one).  [DebugLog] does the same when the shared
    flag reads true at the call, and returns without any call, leaving the
    state as it was, when the flag reads false. *)
Theorem Log_and_DebugLog l status category message args (s : state) :
  Log l status category message args s =
    Normal tt (emit_state (HostLog (m_fmiLogger l) (m_component l)
                             (m_instanceName l) status category message args) s)
  /\ trace (emit_state (HostLog (m_fmiLogger l) (m_component l)
                          (m_instanceName l) status category message args) s) =
       trace s ++ [HostLog (m_fmiLogger l) (m_component l) (m_instanceName l)
                           status category message args]
  /\ calls is_host_log
       (trace (emit_state (HostLog (m_fmiLogger l) (m_component l)
                             (m_instanceName l) status category message args) s)) =
       S (calls is_host_log (trace s))
  /\ (deref (m_debugLoggingEnabled l) s = Normal true s ->
      DebugLog l status category message args s =
      Log l status category message args s)
  /\ (deref (m_debugLoggingEnabled l) s = Normal false s ->
      DebugLog l status category message args s = Normal tt s).
Proof.
  split; [reflexivity|].
  split; [reflexivity|].
  split; [rewrite calls_emit; reflexivity|].
  rewrite DebugLog_run. unfold deref, undefined_behaviour.
  destruct (m_debugLoggingEnabled l) as [cell|].
  - split; intros H; injection H as ->; reflexivity.
  - split; discriminate.
Qed.

(** Toggling the flag between two identical [DebugLog] calls: no host call
    while it reads false, one while it reads true. *)
Lemma Log_and_DebugLog_witness :
  DebugLog (mock_log_instance (Some 0)) 0%Z "cat"%string "msg"%string []
           (start_with_flag false) = Normal tt (start_with_flag false)
  /\ DebugLog (mock_log_instance (Some 0)) 0%Z "cat"%string "msg"%string []
              (start_with_flag true) =
     Normal tt {| trace := [HostLog mock_logger 7 "instance"%string 0%Z
                                    "cat"%string "msg"%string []];
                  flags := flags (start_with_flag true) |}.
Proof.
  split.
  - refine (proj2 (proj2 (proj2 (proj2
      (Log_and_DebugLog (mock_log_instance (Some 0)) 0%Z "cat"%string
         "msg"%string [] (start_with_flag false))))) _).
    reflexivity.
  - refine (proj1 (proj2 (proj2 (proj2
      (Log_and_DebugLog (mock_log_instance (Some 0)) 0%Z "cat"%string
         "msg"%string [] (start_with_flag true))))) _).
    reflexivity.
Defined.

(** C10.  The constructor of [Logger] stores the shared flag it is given
    without looking at it, an empty one included.  [DebugLog] reads through
    the stored pointer on every call: its behaviour is undefined exactly
    when the stored pointer is empty, whatever the other arguments and the
    state are.  With a non-empty flag both [Log] and [DebugLog] are
    defined. *)
Theorem DebugLog_needs_shared_flag :
  (forall component instanceName callbackFunctions flag,
      m_debugLoggingEnabled
        (Logger_new component instanceName callbackFunctions flag) = flag)
  /\ (forall l status category message args s,
        DebugLog l status category message args s = Undefined <->
        m_debugLoggingEnabled l = None)
  /\ (forall l status category message args s,
        DebugLog l status category message args s =
        (enabled <- deref (m_debugLoggingEnabled l) ;;
         if enabled then Log l status category message args else ret tt) s)
  /\ (forall l status category message args s,
        is_undefined (Log l status category message args s) = false).
Proof.
  split; [reflexivity|].
  split; [|split].
  - intros l status category message args s.
    rewrite DebugLog_run.
    destruct (m_debugLoggingEnabled l) as [cell|].
    + split; [|discriminate].
      destruct (flags s cell); discriminate.
    + split; reflexivity.
  - intros l status category message args s.
    rewrite DebugLog_run. unfold bind, deref, undefined_behaviour.
    destruct (m_debugLoggingEnabled l) as [cell|]; [|reflexivity].
    destruct (flags s cell); reflexivity.
  - intros; reflexivity.
Qed.

Lemma DebugLog_needs_shared_flag_witness :
  DebugLog (mock_log_instance None) 0%Z "cat"%string "msg"%string [] start
  = Undefined.
Proof.
  apply (proj1 (proj2 DebugLog_needs_shared_flag)).
  reflexivity.
Defined.

(* ====================================================================== *)
(** ** Memory::Free *)
(* ====================================================================== *)

(** C8, as amended.  [Free(rawBlock)] never throws and always makes exactly
    one call of the host's free function with [rawBlock], the null block
    included: the call is forwarded without a test, and what freeing a null
    block does is left to the host's function.  Handles that compare equal
    call the same host function, so a block can be released through any
    handle equal to the one it was allocated through. *)
Theorem Free_forwards_to_host (m : Memory) (p : ptr) (s : state) :
  Free m p s = Normal tt (emit_state (HostFree (m_free m) p) s)
  /\ raises (Free m p s) = false
  /\ trace (emit_state (HostFree (m_free m) p) s) =
       trace s ++ [HostFree (m_free m) p]
  /\ calls is_host_free (trace (emit_state (HostFree (m_free m) p) s)) =
       S (calls is_host_free (trace s))
  /\ (forall m', Memory_eq m m' = true -> Free m' p s = Free m p s).
Proof.
  rewrite calls_emit; cbn [is_host_free].
  repeat split.
  intros m' Heq. apply Memory_eq_true in Heq. destruct Heq as [_ Hfree].
  rewrite !Free_run, Hfree. reflexivity.
Qed.

Lemma Free_forwards_to_host_witness :
  Free {| m_alloc := mock_allocate; m_free := mock_free |} 4096 start =
  Free mock_memory 4096 start.
Proof.
  apply (proj2 (proj2 (proj2 (proj2
    (Free_forwards_to_host mock_memory 4096 start))))).
  reflexivity.
Defined.

(** C8 as stated fails: freeing the null block is not a no-op of the
    module, the host's free function is called with the null block. *)
Lemma Free_nullptr_calls_host :
  Free mock_memory nullptr start =
    Normal tt {| trace := [HostFree mock_free nullptr]; flags := flags start |}
  /\ Free mock_memory nullptr start <> Normal tt start
  /\ ~ (forall m s, Free m nullptr s = Normal tt s).
Proof.
  split; [reflexivity|].
  split; [discriminate|].
  intros H. specialize (H mock_memory start). discriminate H.
Qed.

(* ====================================================================== *)
(** ** FatalError *)
(* ====================================================================== *)

Lemma catches_FatalError_only x :
  catches (catch_class cls_FatalError) x = true <-> exists e, x = ex_FatalError e.
Proof.
  split.
  - destruct x as [| what | e | id]; cbn; try discriminate.
    intros _. exists e. reflexivity.
  - intros [e ->]. reflexivity.
Qed.

Section FatalErrorSpec.
Context {host : HostEnv}.

(** C9, as amended.  [FatalError] is a class of its own that is also a
    runtime error: a handler for [FatalError] takes [FatalError] objects and
    nothing else, so a handler that names it tells it apart from every
    ordinary error, while the handlers for [std::runtime_error], for
    [std::exception] and [catch (...)] take it as well (those for
    [std::bad_alloc] and for unrelated classes do not).  It carries a
    message and nothing else.  Inside the module nothing recovers from it:
    the one handler there is, in [New<T>], throws it on unchanged after
    freeing the block. *)
Theorem FatalError_is_a_distinct_runtime_error :
  (forall x, catches (catch_class cls_FatalError) x = true <->
             exists e, x = ex_FatalError e)
  /\ (forall e,
        catches (catch_class cls_runtime_error) (ex_FatalError e) = true
        /\ catches (catch_class cls_exception) (ex_FatalError e) = true
        /\ catches catch_ellipsis (ex_FatalError e) = true
        /\ catches (catch_class cls_bad_alloc) (ex_FatalError e) = false
        /\ (forall id, catches (catch_class (cls_other id)) (ex_FatalError e) = false))
  /\ (forall e1 e2 : FatalError,
        FatalError_what e1 = FatalError_what e2 <-> e1 = e2)
  /\ (forall T memory (args : ctor_args T) s e s',
        New_block T memory s <> nullptr ->
        constructor T args (New_block T memory s) (New_ctor_state T memory s)
          = Raised (ex_FatalError e) s' ->
        New T memory args s =
          Raised (ex_FatalError e)
            (emit_state (HostFree (m_free memory) (New_block T memory s)) s')).
Proof.
  split; [exact catches_FatalError_only|].
  split; [intros e; repeat split|].
  split.
  - intros [w1] [w2]; cbn [FatalError_what]. split.
    + intros ->; reflexivity.
    + intros H; injection H as ->; reflexivity.
  - intros T memory args s e s' Hblock Hctor.
    apply N.eqb_neq in Hblock.
    rewrite New_run, Hblock, Hctor. reflexivity.
Qed.
End FatalErrorSpec.

Lemma FatalError_is_a_distinct_runtime_error_witness :
  New (host := mock_host) Widget mock_memory
      (Some (ex_FatalError {| FatalError_what := "model is broken" |})) start =
  Raised (ex_FatalError {| FatalError_what := "model is broken" |})
    {| trace := [HostAlloc mock_allocate 1 8 4096; CtorCall 4096;
                 HostFree mock_free 4096];
       flags := flags start |}.
Proof.
  refine (proj2 (proj2 (proj2
    (FatalError_is_a_distinct_runtime_error (host := mock_host)))) Widget
    mock_memory (Some (ex_FatalError {| FatalError_what := "model is broken" |}))
    start {| FatalError_what := "model is broken" |}
    (New_ctor_state (host := mock_host) Widget mock_memory start) _ _).
  - discriminate.
  - reflexivity.
Defined.

(** C9 as stated fails: [FatalError] is a generic error too.  The handler
    for [std::runtime_error], which is a handler for ordinary errors (it
    takes a plain runtime error), takes a [FatalError] as well. *)
Lemma FatalError_caught_as_runtime_error :
  ordinary_class cls_runtime_error = true
  /\ catches (catch_class cls_runtime_error) (ex_runtime_error "ordinary") = true
  /\ catches (catch_class cls_runtime_error)
       (ex_FatalError {| FatalError_what := "fatal" |}) = true
  /\ ~ (forall c e, ordinary_class c = true ->
                    catches (catch_class c) (ex_FatalError e) = false).
Proof.
  split; [reflexivity|].
  split; [reflexivity|].
  split; [reflexivity|].
  intros H.
  specialize (H cls_runtime_error {| FatalError_what := "fatal" |} eq_refl).
  discriminate H.
Qed.

(* ====================================================================== *)
(** ** Further properties of the allocator *)
(* ====================================================================== *)

Section AllocatorMore.
Context {host : HostEnv}.

(** X1.  Whenever [allocate(n)] returns, the pointer it returns is null
    exactly when [n] is zero: a request for at least one element never
    yields a null pointer (it throws instead), and the null pointer is only
    ever the answer to the empty request. *)
Theorem allocate_null_iff_zero T (a : Allocator T) (n : size_t) (s s1 : state)
    (p : ptr) :
  allocate a n s = Normal p s1 ->
  (p = nullptr <-> n = 0).
Proof.
  rewrite allocate_run.
  destruct (N.eqb n 0) eqn:Hn.
  - apply N.eqb_eq in Hn. intros H; injection H as <- _.
    split; intros _; [exact Hn|reflexivity].
  - apply N.eqb_neq in Hn. cbv zeta.
    destruct (N.eqb _ nullptr) eqn:Hblock; [discriminate|].
    apply N.eqb_neq in Hblock.
    intros H; injection H as <- _.
    split; intros H; [elim Hblock; exact H|elim Hn; exact H].
Qed.

(** X2.  Allocation followed by deallocation of the same count is balanced.
    If [allocate(n)] returned [p], then [deallocate(p, n)] returns, and
    together they made no host call at all when [n] is zero, and exactly
    the two calls allocate-[(n, sizeof(T))] and free-[p] when [n] is
    positive, the freed block being the one the host had returned.  The
    flag store is untouched. *)
Theorem allocate_then_deallocate_balanced T (a : Allocator T) (n : size_t)
    (s s1 : state) (p : ptr) :
  allocate a n s = Normal p s1 ->
  (n = 0 -> deallocate a p n s1 = Normal tt s)
  /\ (0 < n ->
      p = host_allocate (m_alloc (m_memory a)) n (sizeof T) (trace s)
      /\ deallocate a p n s1 =
         Normal tt
           {| trace := trace s ++ [HostAlloc (m_alloc (m_memory a)) n (sizeof T) p;
                                   HostFree (m_free (m_memory a)) p];
              flags := flags s |}).
Proof.
  rewrite allocate_run, deallocate_run.
  destruct (N.eqb n 0) eqn:Hn.
  - apply N.eqb_eq in Hn. subst n.
    intros H; injection H as <- <-.
    split; [reflexivity|intros H; discriminate H].
  - apply N.eqb_neq in Hn. cbv zeta.
    destruct (N.eqb _ nullptr); [discriminate|].
    intros H; injection H as <- <-.
    split; [intros H; elim Hn; exact H|].
    intros Hpos. apply N.ltb_lt in Hpos. rewrite Hpos.
    split; [reflexivity|].
    unfold emit_state; cbn [trace flags].
    rewrite <- app_assoc. reflexivity.
Qed.

(** X3.  [==] on allocators is exactly interchangeability: two allocators
    of the same element type compare equal if and only if [allocate] and
    [deallocate] behave the same through either of them, for every request
    and in every state.  So storage obtained through one can be given back
    through any equal one, and unequal ones differ in the host function
    some request reaches. *)
Theorem Allocator_eq_is_interchangeability T (a b : Allocator T) :
  Allocator_eq a b = true <->
  (forall n s, allocate a n s = allocate b n s)
  /\ (forall p n s, deallocate a p n s = deallocate b p n s).
Proof.
  unfold Allocator_eq. split.
  - intros H. apply Memory_eq_leibniz in H.
    destruct a as [ma], b as [mb]; cbn [m_memory] in H. subst mb.
    split; reflexivity.
  - intros [Halloc Hdealloc].
    apply Memory_eq_true. split.
    + specialize (Halloc 1 {| trace := []; flags := fun _ => false |}).
      rewrite !allocate_run in Halloc.
      cbn [N.eqb] in Halloc; cbv zeta in Halloc.
      unfold emit_state in Halloc; cbn [trace flags app] in Halloc.
      destruct (N.eqb (host_allocate (m_alloc (m_memory a)) 1 (sizeof T) []) nullptr),
               (N.eqb (host_allocate (m_alloc (m_memory b)) 1 (sizeof T) []) nullptr);
        try discriminate Halloc; injection Halloc; intros; assumption.
    + specialize (Hdealloc nullptr 1 {| trace := []; flags := fun _ => false |}).
      rewrite !deallocate_run in Hdealloc.
      cbn [N.ltb N.compare] in Hdealloc.
      unfold emit_state in Hdealloc; cbn [trace flags app] in Hdealloc.
      injection Hdealloc; intros; assumption.
Qed.
End AllocatorMore.

(** X4.  [==] is an equivalence relation on Memory handles and on
    allocators (reflexive, symmetric, transitive), and [!=] never holds
    between a handle and itself. *)
Theorem equality_is_an_equivalence :
  (forall m, Memory_eq m m = true /\ Memory_ne m m = false)
  /\ (forall m1 m2, Memory_eq m1 m2 = Memory_eq m2 m1)
  /\ (forall m1 m2 m3, Memory_eq m1 m2 = true -> Memory_eq m2 m3 = true ->
                       Memory_eq m1 m3 = true)
  /\ (forall T (a : Allocator T), Allocator_eq a a = true /\ Allocator_ne a a = false)
  /\ (forall T (a b : Allocator T), Allocator_eq a b = Allocator_eq b a)
  /\ (forall T (a b c : Allocator T),
        Allocator_eq a b = true -> Allocator_eq b c = true ->
        Allocator_eq a c = true).
Proof.
  assert (Hsym : forall m1 m2, Memory_eq m1 m2 = Memory_eq m2 m1).
  { intros m1 m2. unfold Memory_eq.
    rewrite (N.eqb_sym (m_alloc m1)), (N.eqb_sym (m_free m1)). reflexivity. }
  assert (Htrans : forall m1 m2 m3, Memory_eq m1 m2 = true ->
                     Memory_eq m2 m3 = true -> Memory_eq m1 m3 = true).
  { intros m1 m2 m3 H12 H23.
    apply Memory_eq_leibniz in H12, H23. subst. apply Memory_eq_refl. }
  unfold Allocator_ne, Allocator_eq, Memory_ne.
  split; [intros m; rewrite Memory_eq_refl; split; reflexivity|].
  split; [exact Hsym|].
  split; [exact Htrans|].
  split; [intros T a; rewrite Memory_eq_refl; split; reflexivity|].
  split; [intros T a b; apply Hsym|].
  intros T a b c. apply Htrans.
Qed.

(** X5.  Rebinding loses nothing.  Converting a rebound allocator back
    gives the original allocator again, rebinding twice is rebinding once,
    and a block can be given back through the rebound allocator as well as
    through the original one: [deallocate] makes the same call either way.
    The count passed to [deallocate] is only tested for zero, so any two
    positive counts make the same call. *)
Theorem rebind_round_trip T U V (a : Allocator T) :
  Allocator_convert T (rebind U a) = a
  /\ rebind V (rebind U a) = rebind V a
  /\ (forall p n s, deallocate (rebind U a) p n s = deallocate a p n s)
  /\ (forall p n n' s, 0 < n -> 0 < n' ->
        deallocate (rebind U a) p n s = deallocate a p n' s).
Proof.
  destruct a as [m].
  split; [reflexivity|].
  split; [reflexivity|].
  split; [reflexivity|].
  intros p n n' s Hn Hn'.
  rewrite !deallocate_run.
  apply N.ltb_lt in Hn, Hn'. rewrite Hn, Hn'. reflexivity.
Qed.

(** X6.  Memory handles built from callback bundles compare equal exactly
    when the bundles have the same allocate function and the same free
    function; the logger of the bundle plays no part.  In particular every
    handle built from one bundle equals every other one built from it. *)
Theorem Memory_of_callbacks_equality (cb1 cb2 : fmiCallbackFunctions) :
  (Memory_eq (Memory_new cb1) (Memory_new cb2) = true <->
   allocateMemory cb1 = allocateMemory cb2 /\ freeMemory cb1 = freeMemory cb2)
  /\ Memory_eq (Memory_new cb1)
       (Memory_new {| logger := logger cb2;
                      allocateMemory := allocateMemory cb1;
                      freeMemory := freeMemory cb1 |}) = true.
Proof.
  split.
  - rewrite Memory_eq_true. reflexivity.
  - apply Memory_eq_true. split; reflexivity.
Qed.

Lemma allocate_null_iff_zero_witness :
  (4096 = nullptr <-> 4 = 0).
Proof.
  apply (allocate_null_iff_zero (host := mock_host) IntT
           (Allocator_new IntT mock_memory) 4 start
           {| trace := [HostAlloc mock_allocate 4 4 4096]; flags := flags start |}
           4096).
  reflexivity.
Defined.

Lemma allocate_then_deallocate_balanced_witness :
  deallocate (Allocator_new IntT mock_memory) 4096 4
    {| trace := [HostAlloc mock_allocate 4 4 4096]; flags := flags start |} =
  Normal tt {| trace := [HostAlloc mock_allocate 4 4 4096;
                         HostFree mock_free 4096];
               flags := flags start |}.
Proof.
  refine (proj2 (proj2
    (allocate_then_deallocate_balanced (host := mock_host) IntT
       (Allocator_new IntT mock_memory) 4 start
       {| trace := [HostAlloc mock_allocate 4 4 4096]; flags := flags start |}
       4096 _) _)).
  - reflexivity.
  - reflexivity.
Defined.

Lemma rebind_round_trip_witness :
  deallocate (rebind Widget (Allocator_new IntT mock_memory)) 4096 4 start =
  deallocate (Allocator_new IntT mock_memory) 4096 1 start.
Proof.
  refine (proj2 (proj2 (proj2
    (rebind_round_trip IntT Widget Widget (Allocator_new IntT mock_memory))))
    4096 4 1 start _ _).
  - reflexivity.
  - reflexivity.
Defined.

(* ====================================================================== *)
(** ** Further properties of New, Delete and AllocateUnique *)
(* ====================================================================== *)

Section NewMore.
Context {host : HostEnv}.

(** X7.  When the host has no memory (its block for the single-element
    request is null), [New<T>] throws [std::bad_alloc] after that one
    allocate call, whatever the constructor would have done: no constructor
    call and no free call is made. *)
Theorem New_allocation_failure T memory (args : ctor_args T) (s : state) :
  New_block T memory s = nullptr ->
  New T memory args s =
    Raised ex_bad_alloc
      {| trace := trace s ++ [HostAlloc (m_alloc memory) 1 (sizeof T) nullptr];
         flags := flags s |}
  /\ calls is_ctor_call
       (trace s ++ [HostAlloc (m_alloc memory) 1 (sizeof T) nullptr]) =
     calls is_ctor_call (trace s)
  /\ calls is_host_free
       (trace s ++ [HostAlloc (m_alloc memory) 1 (sizeof T) nullptr]) =
     calls is_host_free (trace s).
Proof.
  intros Hblock.
  rewrite New_run, Hblock. cbn [N.eqb nullptr].
  split; [reflexivity|].
  unfold calls. rewrite !filter_app, !length_app. cbn.
  split; lia.
Qed.

(** X8.  [New<T>] returns only after the constructor has returned: if it
    returns [p], then [p] is the block the host gave, it is not null, the
    constructor ran on it and came back, and the state the caller sees is
    the one the constructor left (nothing was freed). *)
Theorem New_returns_constructed T memory (args : ctor_args T) (s s1 : state)
    (p : ptr) :
  New T memory args s = Normal p s1 ->
  p = New_block T memory s
  /\ p <> nullptr
  /\ constructor T args p (New_ctor_state T memory s) = Normal tt s1.
Proof.
  rewrite New_run.
  destruct (N.eqb (New_block T memory s) nullptr) eqn:Hblock; [discriminate|].
  apply N.eqb_neq in Hblock.
  destruct (constructor T args _ _) as [[] s'| | |] eqn:Hctor; try discriminate.
  intros H; injection H as <- <-.
  split; [reflexivity|]. split; [exact Hblock|exact Hctor].
Qed.

(** X9.  The errors that leave [New<T>] have two origins only.  Either the
    host had no memory, the error is [std::bad_alloc] and the constructor
    never ran; or the constructor threw that very error, and the block was
    freed after it.  [New<T>] adds no error of its own beyond
    [std::bad_alloc] and swallows none. *)
Theorem New_error_origin T memory (args : ctor_args T) (s s1 : state) (e : exn) :
  New T memory args s = Raised e s1 ->
  (New_block T memory s = nullptr
   /\ e = ex_bad_alloc
   /\ s1 = emit_state (HostAlloc (m_alloc memory) 1 (sizeof T) nullptr) s)
  \/ (New_block T memory s <> nullptr
      /\ exists s',
           constructor T args (New_block T memory s) (New_ctor_state T memory s)
             = Raised e s'
           /\ s1 = emit_state (HostFree (m_free memory) (New_block T memory s)) s').
Proof.
  rewrite New_run.
  destruct (N.eqb (New_block T memory s) nullptr) eqn:Hblock.
  - apply N.eqb_eq in Hblock. rewrite Hblock.
    intros H; injection H as <- <-.
    left. repeat split.
  - apply N.eqb_neq in Hblock.
    destruct (constructor T args _ _) as [u s'|e' s'|s'|] eqn:Hctor;
      try discriminate.
    intros H; injection H as <- <-.
    right. split; [exact Hblock|].
    exists s'. split; reflexivity.
Qed.

(** X10.  [New<T>] followed by [Delete<T>] through the same Memory is
    balanced.  When the constructor returns (having made the calls [evc])
    and the destructor returns (having made the calls [evd]), the pair
    returns, and what it added to the trace is: one allocate call for one
    [T], the constructor call on the block, [evc], the destructor call on
    the same block, [evd], and one free call on the same block. *)
Theorem New_then_Delete_balanced T memory (args : ctor_args T)
    (s s1 s2 : state) (p : ptr) (evc evd : list event) :
  New T memory args s = Normal p s1 ->
  trace s1 = trace (New_ctor_state T memory s) ++ evc ->
  destructor T p (emit_state (DtorCall p) s1) = Normal tt s2 ->
  trace s2 = trace (emit_state (DtorCall p) s1) ++ evd ->
  (q <- New T memory args ;; Delete T memory q) s =
    Normal tt (emit_state (HostFree (m_free memory) p) s2)
  /\ trace (emit_state (HostFree (m_free memory) p) s2) =
       trace s ++ [HostAlloc (m_alloc memory) 1 (sizeof T) p; CtorCall p]
               ++ evc ++ [DtorCall p] ++ evd ++ [HostFree (m_free memory) p].
Proof.
  intros HNew Hevc Hdtor Hevd.
  destruct (New_returns T memory args s p s1 HNew) as [Hp _].
  unfold bind at 1. rewrite HNew, Delete_run, Hdtor.
  split; [reflexivity|].
  unfold New_ctor_state in Hevc. rewrite <- Hp in Hevc.
  cbn [emit_state trace] in *.
  rewrite Hevd, Hevc.
  rewrite <- !app_assoc. reflexivity.
Qed.

(** X11.  [AllocateUnique<T>] fails the way [New<T>] does and leaves
    nothing behind: with no memory it throws [std::bad_alloc] after the
    one allocate call; when the constructor throws [e] it throws [e] after
    freeing the block once.  In both cases no handle comes into being, so
    no release action will run later. *)
Theorem AllocateUnique_failure T memory (args : ctor_args T) (s : state) :
  (New_block T memory s = nullptr ->
   AllocateUnique T memory args s =
     Raised ex_bad_alloc
       (emit_state (HostAlloc (m_alloc memory) 1 (sizeof T) nullptr) s))
  /\ (New_block T memory s <> nullptr ->
      forall e s',
        constructor T args (New_block T memory s) (New_ctor_state T memory s)
          = Raised e s' ->
        AllocateUnique T memory args s =
          Raised e (emit_state (HostFree (m_free memory) (New_block T memory s)) s'))
  /\ (forall u s1, AllocateUnique T memory args s = Normal u s1 ->
        New T memory args s = Normal (get u) s1).
Proof.
  rewrite AllocateUnique_run, New_run.
  split; [|split].
  - intros Hblock. rewrite Hblock. reflexivity.
  - intros Hblock e s' Hctor.
    apply N.eqb_neq in Hblock. rewrite Hblock, Hctor. reflexivity.
  - intros u s1.
    destruct (N.eqb (New_block T memory s) nullptr); [discriminate|].
    destruct (constructor T args _ _); try discriminate.
    intros H; injection H as <- <-. reflexivity.
Qed.
End NewMore.

(** X12.  [Delete<T>] frees the block only when the destructor returns.
    If the destructor throws, the program is terminated in the state the
    destructor stopped in, and if [Delete<T>] returns, the destructor had
    returned and the only thing added after it is the one free call.  So a
    destructor that does not return leaves the block with the host. *)
Theorem Delete_frees_only_after_destructor T memory (obj : ptr) (s : state) :
  (forall e s', destructor T obj (emit_state (DtorCall obj) s) = Raised e s' ->
                Delete T memory obj s = Terminated s')
  /\ (forall s1, Delete T memory obj s = Normal tt s1 ->
        exists s', destructor T obj (emit_state (DtorCall obj) s) = Normal tt s'
                   /\ s1 = emit_state (HostFree (m_free memory) obj) s')
  /\ (forall s1, Delete T memory obj s = Terminated s1 ->
        ~ exists s', destructor T obj (emit_state (DtorCall obj) s) = Normal tt s').
Proof.
  rewrite Delete_run.
  split; [|split].
  - intros e s' Hdtor. rewrite Hdtor. reflexivity.
  - intros s1.
    destruct (destructor T obj _) as [[] s'| | |]; try discriminate.
    intros H; injection H as <-. exists s'. split; reflexivity.
  - intros s1.
    destruct (destructor T obj _) as [[] s'| | |]; try discriminate;
      intros _ [s'' H]; discriminate H.
Qed.

(* ====================================================================== *)
(** ** Further properties of the Logger *)
(* ====================================================================== *)

(** X13.  Logging touches nothing but the logger.  [DebugLog] never throws
    and never terminates the program: it either returns or, with an empty
    flag pointer, has no defined behaviour.  When it returns it has made
    at most one call, a logger call with the logger's own component handle
    and instance name; it has made no allocate, free, constructor or
    destructor call and has not written the flag store.  The same holds
    for [Log], which always returns. *)
Theorem logging_touches_only_the_logger l status category message args
    (s : state) :
  match DebugLog l status category message args s with
  | Normal _ s' =>
      flags s' = flags s
      /\ (trace s' = trace s
          \/ trace s' = trace s ++ [HostLog (m_fmiLogger l) (m_component l)
                                           (m_instanceName l) status category
                                           message args])
      /\ calls is_host_alloc (trace s') = calls is_host_alloc (trace s)
      /\ calls is_host_free (trace s') = calls is_host_free (trace s)
      /\ calls is_ctor_call (trace s') = calls is_ctor_call (trace s)
      /\ calls is_dtor_call (trace s') = calls is_dtor_call (trace s)
  | Undefined => m_debugLoggingEnabled l = None
  | Raised _ _ | Terminated _ => False
  end
  /\ exists s',
       Log l status category message args s = Normal tt s'
       /\ flags s' = flags s
       /\ calls is_host_alloc (trace s') = calls is_host_alloc (trace s)
       /\ calls is_host_free (trace s') = calls is_host_free (trace s)
       /\ calls is_ctor_call (trace s') = calls is_ctor_call (trace s)
       /\ calls is_dtor_call (trace s') = calls is_dtor_call (trace s).
Proof.
  split.
  - rewrite DebugLog_run.
    destruct (m_debugLoggingEnabled l) as [cell|]; [|reflexivity].
    destruct (flags s cell).
    + rewrite Log_run, !calls_emit. cbn.
      repeat split. right. reflexivity.
    + repeat split. left. reflexivity.
  - eexists. rewrite Log_run. split; [reflexivity|].
    rewrite !calls_emit. cbn. repeat split.
Qed.

(* ====================================================================== *)
(** ** The further properties on the counting host *)
(* ====================================================================== *)

Lemma New_allocation_failure_witness :
  New (host := mock_host) Widget exhausted_memory None start =
  Raised ex_bad_alloc
    {| trace := [HostAlloc mock_exhausted_allocate 1 8 nullptr];
       flags := flags start |}.
Proof.
  refine (proj1
    (New_allocation_failure (host := mock_host) Widget exhausted_memory None
       start _)).
  reflexivity.
Defined.

Lemma New_returns_constructed_witness :
  4096 = New_block (host := mock_host) Widget mock_memory start
  /\ 4096 <> nullptr
  /\ constructor Widget None 4096
       (New_ctor_state (host := mock_host) Widget mock_memory start) =
     Normal tt {| trace := [HostAlloc mock_allocate 1 8 4096; CtorCall 4096];
                  flags := flags start |}.
Proof.
  apply (New_returns_constructed (host := mock_host) Widget mock_memory None
           start).
  reflexivity.
Defined.

(** A constructor that throws: the error is the constructor's, and the
    host had given a block. *)
Lemma New_error_origin_witness :
  New_block (host := mock_host) Widget mock_memory start <> nullptr.
Proof.
  destruct (New_error_origin (host := mock_host) Widget mock_memory
              (Some (ex_other 42)) start
              {| trace := [HostAlloc mock_allocate 1 8 4096; CtorCall 4096;
                           HostFree mock_free 4096];
                 flags := flags start |}
              (ex_other 42) eq_refl) as [[Hnull _]|[Hblock _]].
  - discriminate Hnull.
  - exact Hblock.
Defined.

Lemma New_then_Delete_balanced_witness :
  (q <- New (host := mock_host) Widget mock_memory None ;;
   Delete Widget mock_memory q) start =
  Normal tt
    {| trace := [HostAlloc mock_allocate 1 8 4096; CtorCall 4096;
                 DtorCall 4096; HostFree mock_free 4096];
       flags := flags start |}.
Proof.
  refine (proj1
    (New_then_Delete_balanced (host := mock_host) Widget mock_memory None start
       {| trace := [HostAlloc mock_allocate 1 8 4096; CtorCall 4096];
          flags := flags start |}
       {| trace := [HostAlloc mock_allocate 1 8 4096; CtorCall 4096;
                    DtorCall 4096];
          flags := flags start |}
       4096 [] [] _ _ _ _)).
  - reflexivity.
  - reflexivity.
  - reflexivity.
  - reflexivity.
Defined.

Lemma AllocateUnique_failure_witness :
  AllocateUnique (host := mock_host) Widget mock_memory
    (Some (ex_runtime_error "no input file")) start =
  Raised (ex_runtime_error "no input file")
    {| trace := [HostAlloc mock_allocate 1 8 4096; CtorCall 4096;
                 HostFree mock_free 4096];
       flags := flags start |}.
Proof.
  refine (proj1 (proj2
    (AllocateUnique_failure (host := mock_host) Widget mock_memory
       (Some (ex_runtime_error "no input file")) start)) _
    (ex_runtime_error "no input file")
    (New_ctor_state (host := mock_host) Widget mock_memory start) _).
  - discriminate.
  - reflexivity.
Defined.

Lemma Delete_frees_only_after_destructor_witness :
  Delete Grenade mock_memory 4096 start =
  Terminated {| trace := [DtorCall 4096]; flags := flags start |}.
Proof.
  refine (proj1 (Delete_frees_only_after_destructor Grenade mock_memory 4096 start)
            (ex_runtime_error "bang")
            {| trace := [DtorCall 4096]; flags := flags start |} _).
  reflexivity.
Defined.

Section AllocatorErrors.
Context {host : HostEnv}.

(** X14.  [allocate] has one way to fail and [deallocate] none.  The only
    error that leaves [allocate(n)] is [std::bad_alloc], and it does so
    only for a positive [n] for which the host returned the null block;
    [allocate] never terminates the program and is always defined.
    [deallocate] always returns. *)
Theorem allocate_throws_only_bad_alloc T (a : Allocator T) (n : size_t)
    (s : state) :
  match allocate a n s with
  | Normal _ _ => True
  | Raised e _ =>
      e = ex_bad_alloc /\ 0 < n
      /\ host_allocate (m_alloc (m_memory a)) n (sizeof T) (trace s) = nullptr
  | Terminated _ | Undefined => False
  end
  /\ forall p, exists s', deallocate a p n s = Normal tt s'.
Proof.
  split.
  - rewrite allocate_run.
    destruct (N.eqb n 0) eqn:Hn; [exact I|].
    apply N.eqb_neq in Hn. cbv zeta.
    destruct (N.eqb _ nullptr) eqn:Hblock; [|exact I].
    apply N.eqb_eq in Hblock.
    split; [reflexivity|]. split; [lia|exact Hblock].
  - intros p. rewrite deallocate_run.
    destruct (N.ltb 0 n); eexists; reflexivity.
Qed.
End AllocatorErrors.
